(** * Shallow embedding of [src/server/server.py] (route [/analyze-farm])

    The Flask handler is modelled as a function from the parsed request body
    to a response (status code and JSON body), run in a small monad that
    carries Python exceptions and records the trace of remote calls made to
    Earth Engine and to the weather service.  Earth Engine and the weather
    HTTP endpoint are external collaborators: their answers are an oracle
    record [Env].  Python numbers are modelled exactly (ints as [Z], floats as
    rationals [Q]). *)

From Stdlib Require Import ZArith QArith Qabs String Ascii List Bool Lia.
Import ListNotations.
Open Scope string_scope.

(** ** Python / JSON values *)

Unset Elimination Schemes.
Inductive json : Type :=
| JNull
| JBool (b : bool)
| JInt (z : Z)
| JFloat (q : Q)
| JStr (s : string)
| JArr (l : list json)
| JObj (l : list (string * json)).
Set Elimination Schemes.

(** A Python number, as returned by [reduceRegion(...).getInfo()] or stored
    in [crop_ndvi_ranges.json]. *)
Inductive num : Type :=
| NInt (z : Z)
| NFloat (q : Q).

Definition num_val (n : num) : Q :=
  match n with NInt z => inject_Z z | NFloat q => q end.

Definition json_of_num (n : num) : json :=
  match n with NInt z => JInt z | NFloat q => JFloat q end.

(** [type(v).__name__] *)
Definition type_name (v : json) : string :=
  match v with
  | JNull => "NoneType" | JBool _ => "bool" | JInt _ => "int"
  | JFloat _ => "float" | JStr _ => "str" | JArr _ => "list" | JObj _ => "dict"
  end.

Definition opt_type_name (v : option num) : string :=
  match v with None => "NoneType" | Some n => type_name (json_of_num n) end.

(** Python truthiness ([if not v]). *)
Definition truthy (v : json) : bool :=
  match v with
  | JNull => false
  | JBool b => b
  | JInt z => negb (Z.eqb z 0)
  | JFloat q => negb (Qeq_bool q 0)
  | JStr s => negb (String.eqb s "")
  | JArr l => negb (List.forallb (fun _ => false) l)
  | JObj l => negb (List.forallb (fun _ => false) l)
  end.

(** Lookup in the items of a dict (keys are unique in a dict). *)
Fixpoint assoc_get {A} (k : string) (l : list (string * A)) : option A :=
  match l with
  | [] => None
  | (k', v) :: r => if String.eqb k k' then Some v else assoc_get k r
  end.

(** ** Exceptions and the evaluation monad *)

Inductive exn : Type :=
| AttributeError (tname attr : string)
| TypeErrorCmp (op t1 t2 : string)
| RemoteError (msg : string).

(** [str(e)] *)
Definition str_exn (e : exn) : string :=
  match e with
  | AttributeError t a => "'" ++ t ++ "' object has no attribute '" ++ a ++ "'"
  | TypeErrorCmp op t1 t2 =>
      "'" ++ op ++ "' not supported between instances of '" ++ t1 ++ "' and '"
          ++ t2 ++ "'"
  | RemoteError m => m
  end.

Inductive result (A : Type) : Type :=
| Ok (a : A)
| Exc (e : exn).
Arguments Ok {A} a.
Arguments Exc {A} e.

(** The remote calls, each a blocking [getInfo()] or HTTP round trip. *)
Inductive event : Type :=
| ESize (coords : json)
| EBandNames (coords : json)
| EReduce (coords : json)
| ECentroid (coords : json)
| EWeather (lat lon : json).

Definition M (A : Type) : Type := list event -> result A * list event.

Definition ret {A} (a : A) : M A := fun tr => (Ok a, tr).
Definition raise {A} (e : exn) : M A := fun tr => (Exc e, tr).
Definition lift {A} (r : result A) : M A := fun tr => (r, tr).
Definition bind {A B} (m : M A) (k : A -> M B) : M B :=
  fun tr => match m tr with
            | (Ok a, tr') => k a tr'
            | (Exc e, tr') => (Exc e, tr')
            end.
(** A remote call: recorded in the trace, whatever it answers. *)
Definition remote {A} (ev : event) (r : result A) : M A :=
  fun tr => (r, (tr ++ [ev])%list).
Definition try_except {A} (m : M A) (h : exn -> M A) : M A :=
  fun tr => match m tr with
            | (Ok a, tr') => (Ok a, tr')
            | (Exc e, tr') => h e tr'
            end.

Notation "x <- m ;; k" := (bind m (fun x => k))
  (at level 61, m at next level, right associativity).

(** ** Python builtins used by the handler *)

(** [d.get(k, default)] *)
Definition py_get (d : json) (k : string) (default : json) : result json :=
  match d with
  | JObj l => Ok (match assoc_get k l with Some v => v | None => default end)
  | _ => Exc (AttributeError (type_name d) "get")
  end.

Definition lower_char (c : ascii) : ascii :=
  let n := nat_of_ascii c in
  if (65 <=? n)%nat && (n <=? 90)%nat then ascii_of_nat (n + 32) else c.

Definition upper_char (c : ascii) : ascii :=
  let n := nat_of_ascii c in
  if (97 <=? n)%nat && (n <=? 122)%nat then ascii_of_nat (n - 32) else c.

(** The string and number builtins the handler calls.  Python's [str.lower]
    and [str.capitalize] use the Unicode case tables, and [str()] of a float
    its shortest round-trip repr; the model takes them as parameters, so that
    every result holds for the real builtins. *)
Record Builtins : Type := {
  str_lower : string -> string;       (* str.lower *)
  str_capitalize : string -> string;  (* str.capitalize *)
  num_str : num -> string             (* str() of an int or a float *)
}.

(** The ASCII part of [str.lower] and [str.capitalize], used by the
    examples (whose strings are ASCII, where they agree with Python's). *)
Fixpoint ascii_lower (s : string) : string :=
  match s with
  | EmptyString => EmptyString
  | String c r => String (lower_char c) (ascii_lower r)
  end.

Definition ascii_capitalize (s : string) : string :=
  match s with
  | EmptyString => EmptyString
  | String c r => String (upper_char c) (ascii_lower r)
  end.

(** [v.lower()] on an arbitrary JSON value. *)
Definition py_lower (py : Builtins) (v : json) : result string :=
  match v with
  | JStr s => Ok (str_lower py s)
  | _ => Exc (AttributeError (type_name v) "lower")
  end.

(** Python comparison of a number with a value that may be [None]. *)
Definition py_cmp (op : string) (rel : Q -> Q -> bool) (a b : option num)
  : result bool :=
  match a, b with
  | Some x, Some y => Ok (rel (num_val x) (num_val y))
  | _, _ => Exc (TypeErrorCmp op (opt_type_name a) (opt_type_name b))
  end.

Definition q_lt (x y : Q) : bool := negb (Qle_bool y x).
Definition py_lt := py_cmp "<" q_lt.
Definition py_le := py_cmp "<=" Qle_bool.

(** [round(x, 4)] on a float: the nearest multiple of 1/10000, ties to even;
    on an int it returns the int unchanged. *)
Definition round4_Q (q : Q) : Q :=
  let x := (q * inject_Z 10000)%Q in
  let f := (Qnum x / Zpos (Qden x))%Z in
  let r := (x - inject_Z f)%Q in
  let z := if q_lt r (1 # 2) then f
           else if q_lt (1 # 2) r then (f + 1)%Z
           else if Z.even f then f else (f + 1)%Z in
  Qmake z 10000.

Definition py_round4 (n : num) : num :=
  match n with NInt z => NInt z | NFloat q => NFloat (round4_Q q) end.

(** [repr] of a list of band names (band names contain no quote, backslash
    or control character, for which [repr] is the string in single quotes). *)
Definition repr_str (s : string) : string := "'" ++ s ++ "'".
Fixpoint join_repr (l : list string) : string :=
  match l with
  | [] => ""
  | [s] => repr_str s
  | s :: r => repr_str s ++ ", " ++ join_repr r
  end.
Definition repr_list (l : list string) : string := "[" ++ join_repr l ++ "]".

(** ** The handler's collaborators *)

(** An entry of [crop_ndvi_ranges.json]. *)
Record crop_range : Type := { ndvi_min : num; ndvi_max : num }.

(** [crop_ranges], loaded once at start-up, keys as in the file. *)
Definition crop_table : Type := list (string * crop_range).

(** Earth Engine and the weather endpoint, as seen from the handler.  Each
    field answers one call of the source; [centroid_info] yields the pair
    unpacked by [lon, lat = centroid]. *)
Record Env : Type := {
  ee_polygon : json -> option exn;                  (* ee.Geometry.Polygon(coords), client side *)
  size_info : json -> result Z;                     (* collection.size().getInfo() *)
  band_names_info : json -> result (list string);   (* image.bandNames().getInfo() *)
  mean_stats_info : json -> result (list (string * option num));
                                                    (* indices_image.reduceRegion(...).getInfo() *)
  centroid_info : json -> result (json * json);     (* polygon.centroid().coordinates().getInfo() *)
  weather_info : json -> json -> result json        (* requests.get(weather_url).json() *)
}.

Record response : Type := { status : Z; rbody : json }.

(** [jsonify({"error": msg}), code] *)
Definition err (code : Z) (msg : string) : response :=
  {| status := code; rbody := JObj [("error", JStr msg)] |}.

Definition required_bands : list string := ["B2"; "B3"; "B4"; "B8"; "B11"].

Definition no_images_msg : string :=
  "No Sentinel-2 images found for the given area/date range.".

(** [[b for b in bands if b not in available_bands]] *)
Definition missing_bands (available_bands : list string) : list string :=
  filter (fun b => negb (existsb (String.eqb b) available_bands)) required_bands.

Definition missing_bands_msg (missing available : list string) : string :=
  "Missing bands: " ++ repr_list missing ++ ". Available: " ++ repr_list available.

(** [safe_val(name)] over the dict [mean_stats]: a missing key and a [None]
    value both give [0.0]. *)
Definition safe_val (mean_stats : list (string * option num)) (name : string)
  : num :=
  match assoc_get name mean_stats with
  | Some (Some v) => py_round4 v
  | _ => NFloat 0
  end.

Definition unhealthy_msg (py : Builtins) (crop_type : string) : string :=
  str_capitalize py crop_type
    ++ " shows stress or poor vegetation (Unhealthy). OR maybe bare soil.".
Definition healthy_msg (py : Builtins) (crop_type : string) : string :=
  str_capitalize py crop_type ++ " crop appears Healthy.".
Definition excess_msg : string :=
  "Excess greenness detected (possibly weeds or dense canopy).".

(** Lines 105-110: [if mean_ndvi < ndvi_min: ... elif ndvi_min <= mean_ndvi
    <= ndvi_max: ... else: ...], the chained comparison short-circuiting. *)
Definition health_status_of (py : Builtins) (crop_type : string) (mean_ndvi : num)
    (mn mx : option num) : result string :=
  match py_lt (Some mean_ndvi) mn with
  | Exc e => Exc e
  | Ok true => Ok (unhealthy_msg py crop_type)
  | Ok false =>
      match py_le mn (Some mean_ndvi) with
      | Exc e => Exc e
      | Ok false => Ok excess_msg
      | Ok true =>
          match py_le (Some mean_ndvi) mx with
          | Exc e => Exc e
          | Ok true => Ok (healthy_msg py crop_type)
          | Ok false => Ok excess_msg
          end
      end
  end.

Definition indices_of (mean_stats : list (string * option num)) : json :=
  JObj [("NDVI", json_of_num (safe_val mean_stats "NDVI"));
        ("EVI", json_of_num (safe_val mean_stats "EVI"));
        ("NDWI", json_of_num (safe_val mean_stats "NDWI"));
        ("MSI", json_of_num (safe_val mean_stats "MSI"));
        ("GREEN", json_of_num (safe_val mean_stats "B3"));
        ("RED", json_of_num (safe_val mean_stats "B4"));
        ("NIR", json_of_num (safe_val mean_stats "B8"))].

Definition lookup_min (crops : crop_table) (crop_type : string) : option num :=
  match assoc_get crop_type crops with Some r => Some (ndvi_min r) | None => None end.
Definition lookup_max (crops : crop_table) (crop_type : string) : option num :=
  match assoc_get crop_type crops with Some r => Some (ndvi_max r) | None => None end.

Section Handler.

Variable py : Builtins.

Definition opt_str (v : option num) : string :=
  match v with None => "None" | Some n => num_str py n end.

Definition success_body (indices : json) (temp humidity wind rain : json)
    (crop_type : string) (mn mx : option num) (health_status : string) : json :=
  JObj [("indices", indices);
        ("weather", JObj [("temperature", temp); ("humidity", humidity);
                          ("wind_speed", wind); ("rain", rain)]);
        ("crop_type", JStr crop_type);
        ("healthy_range", JStr (opt_str mn ++ " - " ++ opt_str mx));
        ("health_status", JStr health_status)].

(** The body of the [try] block of [analyze_farm]. *)
Definition analyze_body (env : Env) (crops : crop_table) (data : json)
  : M response :=
  coords <- lift (py_get data "coordinates" JNull) ;;
  ct <- lift (py_get data "crop_type" (JStr "")) ;;
  crop_type <- lift (py_lower py ct) ;;
  if negb (truthy coords) then ret (err 400 "No coordinates provided") else
  if negb (truthy (JStr crop_type)) then ret (err 400 "No crop type provided") else
  let ndvi_min := lookup_min crops crop_type in
  let ndvi_max := lookup_max crops crop_type in
  _ <- lift (match ee_polygon env coords with Some e => Exc e | None => Ok tt end) ;;
  size <- remote (ESize coords) (size_info env coords) ;;
  if Z.eqb size 0 then ret (err 404 no_images_msg) else
  available_bands <- remote (EBandNames coords) (band_names_info env coords) ;;
  let missing := missing_bands available_bands in
  match missing with
  | _ :: _ => ret (err 500 (missing_bands_msg missing available_bands))
  | [] =>
    mean_stats <- remote (EReduce coords) (mean_stats_info env coords) ;;
    centroid <- remote (ECentroid coords) (centroid_info env coords) ;;
    let (lon, lat) := centroid in
    weather_res <- remote (EWeather lat lon) (weather_info env lat lon) ;;
    current <- lift (py_get weather_res "current" (JObj [])) ;;
    temp <- lift (py_get current "temperature_2m" (JInt 0)) ;;
    rain <- lift (py_get current "rain" (JInt 0)) ;;
    let mean_ndvi := safe_val mean_stats "NDVI" in
    health_status <- lift (health_status_of py crop_type mean_ndvi ndvi_min ndvi_max) ;;
    humidity <- lift (py_get current "relative_humidity_2m" JNull) ;;
    wind <- lift (py_get current "wind_speed_10m" JNull) ;;
    ret {| status := 200;
           rbody := success_body (indices_of mean_stats) temp humidity wind rain
                      crop_type ndvi_min ndvi_max health_status |}
  end.

(** [analyze_farm()]: the body under [except Exception as e: return
    jsonify({"error": str(e)}), 500], run from an empty trace. *)
Definition analyze_farm (env : Env) (crops : crop_table) (data : json)
  : result response * list event :=
  try_except (analyze_body env crops data)
    (fun e => ret (err 500 (str_exn e))) [].

End Handler.

(** ** Concrete collaborators for the examples *)

Definition square_coords : json :=
  JArr [JArr [JFloat 30; JFloat 10]; JArr [JFloat 31; JFloat 10];
        JArr [JFloat 31; JFloat 11]; JArr [JFloat 30; JFloat 11]].

(** The end-to-end scenario of the spec: the provider returns all indices,
    the weather service a full [current] object. *)
Definition scenario_env : Env := {|
  ee_polygon := fun _ => None;
  size_info := fun _ => Ok 3%Z;
  band_names_info := fun _ => Ok required_bands;
  mean_stats_info := fun _ =>
    Ok [("NDVI", Some (NFloat (55 # 100))); ("EVI", Some (NFloat (4 # 10)));
        ("NDWI", Some (NFloat (1 # 10))); ("MSI", Some (NFloat (9 # 10)));
        ("B3", Some (NFloat (5 # 100))); ("B4", Some (NFloat (7 # 100)));
        ("B8", Some (NFloat (3 # 10)))];
  centroid_info := fun _ => Ok (JFloat (61 # 2), JFloat (21 # 2));
  weather_info := fun _ _ =>
    Ok (JObj [("current", JObj [("temperature_2m", JFloat (57 # 2));
                                ("relative_humidity_2m", JInt 40);
                                ("wind_speed_10m", JFloat 12);
                                ("rain", JInt 0)])])
|}.

Definition scenario_crops : crop_table :=
  [("wheat", {| ndvi_min := NFloat (3 # 10); ndvi_max := NFloat (7 # 10) |})].

(** A rendering of numbers for the examples (the real one is Python's). *)
Definition example_num_str (n : num) : string :=
  match n with NInt _ => "int" | NFloat _ => "float" end.

(** The builtins of the examples. *)
Definition example_py : Builtins := {|
  str_lower := ascii_lower;
  str_capitalize := ascii_capitalize;
  num_str := example_num_str
|}.

(** ** Helper lemmas *)

Lemma q_lt_true (x y : Q) : q_lt x y = true <-> (x < y)%Q.
Proof.
  unfold q_lt. rewrite negb_true_iff. split; intro H.
  - apply Qnot_le_lt. intro H'. apply Qle_bool_iff in H'. congruence.
  - destruct (Qle_bool y x) eqn:E; [|reflexivity].
    apply Qle_bool_iff in E. exfalso. apply (Qlt_not_le _ _ H E).
Qed.

(** ** C1: three-way classification *)

(** C1. For defined bounds [ndvi_min <= ndvi_max], [mean_ndvi < ndvi_min]
    gives the unhealthy status, [ndvi_min <= mean_ndvi <= ndvi_max] (bounds
    included) the healthy status, and [mean_ndvi > ndvi_max] the
    excess-greenness status. *)
Theorem health_status_three_way (py : Builtins) (crop_type : string) (mean mn mx : num)
    (Hle : (num_val mn <= num_val mx)%Q) :
  ((num_val mean < num_val mn)%Q ->
     health_status_of py crop_type mean (Some mn) (Some mx)
     = Ok (unhealthy_msg py crop_type)) /\
  ((num_val mn <= num_val mean)%Q -> (num_val mean <= num_val mx)%Q ->
     health_status_of py crop_type mean (Some mn) (Some mx)
     = Ok (healthy_msg py crop_type)) /\
  ((num_val mx < num_val mean)%Q ->
     health_status_of py crop_type mean (Some mn) (Some mx) = Ok excess_msg).
Proof.
  unfold health_status_of, py_lt, py_le, py_cmp.
  split; [|split]; intros H.
  - apply q_lt_true in H. rewrite H. reflexivity.
  - intros H2.
    destruct (q_lt (num_val mean) (num_val mn)) eqn:E1.
    + apply q_lt_true in E1. exfalso. apply (Qlt_not_le _ _ E1 H).
    + apply Qle_bool_iff in H. apply Qle_bool_iff in H2. rewrite H, H2.
      reflexivity.
  - destruct (q_lt (num_val mean) (num_val mn)) eqn:E1.
    + apply q_lt_true in E1. exfalso.
      apply (Qlt_not_le _ _ (Qlt_trans _ _ _ E1 (Qle_lt_trans _ _ _ Hle H))).
      apply Qle_refl.
    + destruct (Qle_bool (num_val mn) (num_val mean)); [|reflexivity].
      destruct (Qle_bool (num_val mean) (num_val mx)) eqn:E3; [|reflexivity].
      apply Qle_bool_iff in E3. exfalso. apply (Qlt_not_le _ _ H E3).
Qed.

(** Witness of C1 at the spec's boundary law: bounds 0.2 and 0.8. *)
Lemma health_status_three_way_witness :
  (num_val (NFloat (2 # 10)) <= num_val (NFloat (8 # 10)))%Q /\
  health_status_of example_py "wheat" (NFloat (2 # 10)) (Some (NFloat (2 # 10)))
    (Some (NFloat (8 # 10))) = Ok (healthy_msg example_py "wheat").
Proof.
  assert (Hle : (num_val (NFloat (2 # 10)) <= num_val (NFloat (8 # 10)))%Q)
    by (vm_compute; discriminate).
  split; [exact Hle|].
  apply (proj1 (proj2 (health_status_three_way example_py "wheat" (NFloat (2 # 10))
           (NFloat (2 # 10)) (NFloat (8 # 10)) Hle)));
    vm_compute; discriminate.
Defined.

(** ** C2: input validation precedes every remote call *)

(** The value of [data.get("coordinates")] and of [data.get("crop_type", "")]
    on a request body that is a JSON object. *)
Definition field_or (fields : list (string * json)) (k : string) (d : json) : json :=
  match assoc_get k fields with Some v => v | None => d end.




(** ** C8: the crop type is used lowercased only *)

(** C8. Evaluating a request with crop type [s] gives the same response and
    the same remote calls as with [str_lower py s], for every string on which
    [str.lower] is idempotent.  Python's [str.lower] is idempotent on every
    string (its Unicode lowercase mapping maps each code point to characters
    that are already lowercase), so for the real builtins the hypothesis always
    holds; e.g. "ÉPEAUTRE" and "épeautre" are handled alike. *)
Theorem analyze_crop_type_case_insensitive (py : Builtins)
    (env : Env) (crops : crop_table) (coords : json) (s : string)
    (Hidem : str_lower py (str_lower py s) = str_lower py s) :
  analyze_farm py env crops
      (JObj [("coordinates", coords); ("crop_type", JStr s)])
  = analyze_farm py env crops
      (JObj [("coordinates", coords); ("crop_type", JStr (str_lower py s))]).
Proof.
  unfold analyze_farm, analyze_body, try_except, bind, lift, py_get, py_lower.
  cbn [assoc_get String.eqb Ascii.eqb Bool.eqb andb].
  rewrite Hidem. reflexivity.
Qed.

Lemma analyze_crop_type_case_insensitive_witness :
  str_lower example_py (str_lower example_py "WHEAT")
    = str_lower example_py "WHEAT" /\
  analyze_farm example_py scenario_env scenario_crops
      (JObj [("coordinates", square_coords); ("crop_type", JStr "WHEAT")])
  = analyze_farm example_py scenario_env scenario_crops
      (JObj [("coordinates", square_coords);
             ("crop_type", JStr (str_lower example_py "WHEAT"))]).
Proof.
  split; [vm_compute; reflexivity |].
  apply (analyze_crop_type_case_insensitive example_py scenario_env
           scenario_crops square_coords "WHEAT").
  vm_compute; reflexivity.
Defined.

(** ** C9: a [null] crop type *)

(** C9. If the body maps [crop_type] to [null], [None.lower()] raises and
    the catch-all answers 500 with the raw message, before any remote call. *)
Theorem analyze_null_crop_type (py : Builtins) (env : Env)
    (crops : crop_table) (fields : list (string * json))
    (Hnull : assoc_get "crop_type" fields = Some JNull) :
  analyze_farm py env crops (JObj fields)
  = (Ok (err 500 "'NoneType' object has no attribute 'lower'"), []).
Proof.
  unfold analyze_farm, analyze_body, try_except, bind, lift; simpl.
  rewrite Hnull. reflexivity.
Qed.

(** Witness of C9. *)
Lemma analyze_null_crop_type_witness :
  analyze_farm example_py scenario_env scenario_crops
      (JObj [("coordinates", square_coords); ("crop_type", JNull)])
  = (Ok (err 500 "'NoneType' object has no attribute 'lower'"), []).
Proof.
  apply (analyze_null_crop_type example_py scenario_env scenario_crops
           [("coordinates", square_coords); ("crop_type", JNull)]).
  reflexivity.
Defined.

(** ** Case analysis of a run *)

(** Unfold a hypothesis [analyze_farm ... = (res, tr)] and split it along
    every branch of the handler. *)
Ltac run_cases H :=
  unfold analyze_farm, analyze_body, try_except, bind, lift, remote, ret, raise
    in H;
  repeat (match type of H with
          | context [match ?x with _ => _ end] =>
              lazymatch x with
              | context [match _ with _ => _ end] => fail
              | _ => let E := fresh "E" in destruct x eqn:E
              end
          end; cbn -[str_exn missing_bands missing_bands_msg success_body indices_of
                     health_status_of safe_val lookup_min lookup_max] in H);
  try discriminate H;
  try (injection H; clear H; intros; subst).

(** ** C4: no imagery *)

(** C4. When the collection size query is made and answers 0, the response
    is 404 with the no-imagery message, and that query is the only remote call:
    no band, reduction, centroid or weather call follows. *)
Theorem no_imagery_short_circuits (py : Builtins) (env : Env)
    (crops : crop_table) (data : json) (r : response) (tr : list event)
    (c : json)
    (Hrun : analyze_farm py env crops data = (Ok r, tr))
    (Hin : In (ESize c) tr) (Hsize : size_info env c = Ok 0%Z) :
  r = err 404 no_images_msg /\ tr = [ESize c].
Proof.
  run_cases Hrun; simpl in Hin;
    repeat match goal with
           | H : _ \/ _ |- _ => destruct H as [H|H]
           | H : False |- _ => contradiction
           | H : ESize _ = ESize _ |- _ => injection H; clear H; intros; subst
           | H : _ = ESize _ |- _ => discriminate H
           end;
    try (split; reflexivity);
    try match goal with
        | H1 : size_info env ?c = Ok ?a, H2 : size_info env ?c = Ok 0%Z |- _ =>
            rewrite H2 in H1; injection H1; intros; subst; discriminate
        end.
  all: congruence.
Qed.

(** Witness of C4: the scenario with an empty collection. *)
Lemma no_imagery_short_circuits_witness :
  analyze_farm example_py
    {| ee_polygon := fun _ => None; size_info := fun _ => Ok 0%Z;
       band_names_info := band_names_info scenario_env;
       mean_stats_info := mean_stats_info scenario_env;
       centroid_info := centroid_info scenario_env;
       weather_info := weather_info scenario_env |}
    scenario_crops
    (JObj [("coordinates", square_coords); ("crop_type", JStr "wheat")])
  = (Ok (err 404 no_images_msg), [ESize square_coords]) /\
  (err 404 no_images_msg = err 404 no_images_msg /\
   [ESize square_coords] = [ESize square_coords]).
Proof.
  split; [reflexivity|].
  apply (no_imagery_short_circuits example_py
           {| ee_polygon := fun _ => None; size_info := fun _ => Ok 0%Z;
              band_names_info := band_names_info scenario_env;
              mean_stats_info := mean_stats_info scenario_env;
              centroid_info := centroid_info scenario_env;
              weather_info := weather_info scenario_env |}
           scenario_crops
           (JObj [("coordinates", square_coords); ("crop_type", JStr "wheat")])
           (err 404 no_images_msg) [ESize square_coords] square_coords).
  - reflexivity.
  - left; reflexivity.
  - reflexivity.
Defined.

(** ** C5: missing bands *)

Lemma missing_bands_spec (available : list string) (b : string) :
  In b (missing_bands available) <-> In b required_bands /\ ~ In b available.
Proof.
  unfold missing_bands. rewrite filter_In, negb_true_iff.
  split; intros [H1 H2]; split; auto.
  - intro Hin. assert (existsb (String.eqb b) available = true) as Hx.
    { apply existsb_exists. exists b. split; auto. apply String.eqb_refl. }
    congruence.
  - destruct (existsb (String.eqb b) available) eqn:E; auto.
    apply existsb_exists in E as [x [Hx Heq]].
    apply String.eqb_eq in Heq. subst. contradiction.
Qed.

Ltac trace_cases Hin :=
  simpl in Hin;
  repeat match goal with
         | H : _ \/ _ |- _ => destruct H as [H|H]
         | H : False |- _ => contradiction
         | H : ?f _ = ?f _ |- _ => injection H; clear H; intros; subst
         | H : ?f _ _ = ?f _ _ |- _ => injection H; clear H; intros; subst
         | H : _ = _ |- _ => discriminate H
         end.

(** C5. When the band query is made and some required band is absent, the
    response is 500 with "Missing bands: [...]. Available: [...]", listing
    exactly the required bands absent from the composite and all available
    ones, and no reduction, centroid or weather call is made. *)
Theorem missing_bands_short_circuits (py : Builtins) (env : Env)
    (crops : crop_table) (data : json) (r : response) (tr : list event)
    (c : json) (available : list string)
    (Hrun : analyze_farm py env crops data = (Ok r, tr))
    (Hin : In (EBandNames c) tr)
    (Hbands : band_names_info env c = Ok available)
    (Hmiss : exists b, In b required_bands /\ ~ In b available) :
  r = err 500 (missing_bands_msg (missing_bands available) available) /\
  (forall b, In b (missing_bands available)
             <-> In b required_bands /\ ~ In b available) /\
  tr = [ESize c; EBandNames c].
Proof.
  assert (Hne : missing_bands available <> []).
  { destruct Hmiss as [b Hb]. apply missing_bands_spec in Hb.
    intro E. rewrite E in Hb. contradiction. }
  split; [| split; [intro b; apply missing_bands_spec|]];
    run_cases Hrun; trace_cases Hin; try (split; reflexivity);
    try reflexivity; congruence.
Qed.

(** The composite of the spec's scenario, without band [B11]. *)
Definition no_b11_env : Env := {|
  ee_polygon := fun _ => None;
  size_info := fun _ => Ok 3%Z;
  band_names_info := fun _ => Ok ["B1"; "B2"; "B3"; "B4"; "B8"];
  mean_stats_info := mean_stats_info scenario_env;
  centroid_info := centroid_info scenario_env;
  weather_info := weather_info scenario_env
|}.

(** Witness of C5: the message is
    "Missing bands: ['B11']. Available: ['B1', 'B2', 'B3', 'B4', 'B8']". *)
Lemma missing_bands_short_circuits_witness :
  missing_bands_msg (missing_bands ["B1"; "B2"; "B3"; "B4"; "B8"])
                    ["B1"; "B2"; "B3"; "B4"; "B8"]
    = "Missing bands: ['B11']. Available: ['B1', 'B2', 'B3', 'B4', 'B8']" /\
  (err 500 "Missing bands: ['B11']. Available: ['B1', 'B2', 'B3', 'B4', 'B8']"
     = err 500 (missing_bands_msg (missing_bands ["B1"; "B2"; "B3"; "B4"; "B8"])
                                  ["B1"; "B2"; "B3"; "B4"; "B8"]) /\
   (forall b, In b (missing_bands ["B1"; "B2"; "B3"; "B4"; "B8"])
     <-> In b required_bands /\ ~ In b ["B1"; "B2"; "B3"; "B4"; "B8"]) /\
   [ESize square_coords; EBandNames square_coords]
     = [ESize square_coords; EBandNames square_coords]).
Proof.
  split; [reflexivity|].
  apply (missing_bands_short_circuits example_py no_b11_env scenario_crops
           (JObj [("coordinates", square_coords); ("crop_type", JStr "wheat")])
           (err 500 "Missing bands: ['B11']. Available: ['B1', 'B2', 'B3', 'B4', 'B8']")
           [ESize square_coords; EBandNames square_coords] square_coords
           ["B1"; "B2"; "B3"; "B4"; "B8"]).
  - reflexivity.
  - right; left; reflexivity.
  - reflexivity.
  - exists "B11". split; [simpl; tauto|].
    simpl. intros [H|[H|[H|[H|[H|H]]]]]; try discriminate H; exact H.
Defined.

(** ** Successful runs *)

(** The weather block of a successful run reads the fields of [current]. *)
Definition weather_of (l : list (string * json)) : json :=
  JObj [("temperature", field_or l "temperature_2m" (JInt 0));
        ("humidity", field_or l "relative_humidity_2m" JNull);
        ("wind_speed", field_or l "wind_speed_10m" JNull);
        ("rain", field_or l "rain" (JInt 0))].

(** A 200 response comes from the full path: every step succeeded, in order. *)
Lemma analyze_success (py : Builtins) (env : Env)
    (crops : crop_table) (data : json) (r : response) (tr : list event) :
  analyze_farm py env crops data = (Ok r, tr) -> status r = 200%Z ->
  exists coords ct crop_type size available ms lon lat w l hs,
    py_get data "coordinates" JNull = Ok coords /\ truthy coords = true /\
    py_get data "crop_type" (JStr "") = Ok ct /\
    py_lower py ct = Ok crop_type /\ crop_type <> "" /\
    ee_polygon env coords = None /\
    size_info env coords = Ok size /\ size <> 0%Z /\
    band_names_info env coords = Ok available /\
    missing_bands available = [] /\
    mean_stats_info env coords = Ok ms /\
    centroid_info env coords = Ok (lon, lat) /\
    weather_info env lat lon = Ok w /\
    py_get w "current" (JObj []) = Ok (JObj l) /\
    health_status_of py crop_type (safe_val ms "NDVI") (lookup_min crops crop_type)
      (lookup_max crops crop_type) = Ok hs /\
    r = {| status := 200;
           rbody := success_body py (indices_of ms)
                      (field_or l "temperature_2m" (JInt 0))
                      (field_or l "relative_humidity_2m" JNull)
                      (field_or l "wind_speed_10m" JNull)
                      (field_or l "rain" (JInt 0))
                      crop_type (lookup_min crops crop_type)
                      (lookup_max crops crop_type) hs |} /\
    tr = [ESize coords; EBandNames coords; EReduce coords; ECentroid coords;
          EWeather lat lon].
Proof.
  intros Hrun Hst. run_cases Hrun; try discriminate Hst.
  match goal with
  | H : py_get ?cur "temperature_2m" (JInt 0) = Ok _ |- _ =>
      destruct cur as [| | | | | |l]; try discriminate H
  end.
  simpl in *.
  repeat match goal with
         | H : Ok _ = Ok _ |- _ => injection H; clear H; intros; subst
         end.
  do 11 eexists.
  repeat split; eauto.
  - destruct (truthy _); simpl in *; congruence.
  - intro Hc. subst. simpl in *. discriminate.
  - intro Hc. subst. simpl in *. discriminate.
Qed.

(** Conversely, a run whose steps all succeed answers 200. *)
Lemma analyze_success_intro (py : Builtins) (env : Env)
    (crops : crop_table) (data : json)
    coords ct crop_type size available ms lon lat w l hs :
    py_get data "coordinates" JNull = Ok coords -> truthy coords = true ->
    py_get data "crop_type" (JStr "") = Ok ct ->
    py_lower py ct = Ok crop_type -> crop_type <> "" ->
    ee_polygon env coords = None ->
    size_info env coords = Ok size -> size <> 0%Z ->
    band_names_info env coords = Ok available ->
    missing_bands available = [] ->
    mean_stats_info env coords = Ok ms ->
    centroid_info env coords = Ok (lon, lat) ->
    weather_info env lat lon = Ok w ->
    py_get w "current" (JObj []) = Ok (JObj l) ->
    health_status_of py crop_type (safe_val ms "NDVI") (lookup_min crops crop_type)
      (lookup_max crops crop_type) = Ok hs ->
  analyze_farm py env crops data
  = (Ok {| status := 200;
           rbody := success_body py (indices_of ms)
                      (field_or l "temperature_2m" (JInt 0))
                      (field_or l "relative_humidity_2m" JNull)
                      (field_or l "wind_speed_10m" JNull)
                      (field_or l "rain" (JInt 0))
                      crop_type (lookup_min crops crop_type)
                      (lookup_max crops crop_type) hs |},
     [ESize coords; EBandNames coords; EReduce coords; ECentroid coords;
      EWeather lat lon]).
Proof.
  intros H1 H2 H3 H4 H5 H6 H7 H8 H9 H10 H11 H12 H13 H14 H15.
  unfold analyze_farm, analyze_body, try_except, bind, lift, remote, ret.
  rewrite H1, H3, H4, H2, H6, H7, H9, H10, H11, H12, H13, H14, H15.
  apply String.eqb_neq in H5. rewrite <- Z.eqb_neq in H8.
  simpl. rewrite H5, H8. reflexivity.
Qed.

(** ** C7: the seven index keys *)

(** C7. Every 200 response carries an [indices] object whose keys are
    exactly NDVI, EVI, NDWI, MSI, GREEN, RED and NIR, in this order. *)
Theorem success_indices_keys (py : Builtins) (env : Env)
    (crops : crop_table) (data : json) (r : response) (tr : list event)
    (Hrun : analyze_farm py env crops data = (Ok r, tr))
    (Hst : status r = 200%Z) :
  exists idx rest,
    rbody r = JObj (("indices", JObj idx) :: rest) /\
    map fst idx = ["NDVI"; "EVI"; "NDWI"; "MSI"; "GREEN"; "RED"; "NIR"].
Proof.
  destruct (analyze_success _ _ _ _ _ _ Hrun Hst)
    as (coords & ct & crop_type & size & available & ms & lon & lat & w & l & hs
        & _ & _ & _ & _ & _ & _ & _ & _ & _ & _ & _ & _ & _ & _ & _ & Hr & _).
  subst r. simpl. eexists _, _. split; reflexivity.
Qed.

(** Witness of C7: the spec's end-to-end scenario. *)
Lemma success_indices_keys_witness :
  exists idx rest,
    rbody {| status := 200;
             rbody := success_body example_py
               (indices_of (match mean_stats_info scenario_env square_coords with
                            | Ok ms => ms | Exc _ => [] end))
               (JFloat (57 # 2)) (JInt 40) (JFloat 12) (JInt 0) "wheat"
               (Some (NFloat (3 # 10))) (Some (NFloat (7 # 10)))
               (healthy_msg example_py "wheat") |}
      = JObj (("indices", JObj idx) :: rest) /\
    map fst idx = ["NDVI"; "EVI"; "NDWI"; "MSI"; "GREEN"; "RED"; "NIR"].
Proof.
  destruct (success_indices_keys example_py scenario_env scenario_crops
              (JObj [("coordinates", square_coords); ("crop_type", JStr "wheat")])
              {| status := 200;
                 rbody := success_body example_py
                   (indices_of (match mean_stats_info scenario_env square_coords with
                                | Ok ms => ms | Exc _ => [] end))
                   (JFloat (57 # 2)) (JInt 40) (JFloat 12) (JInt 0) "wheat"
                   (Some (NFloat (3 # 10))) (Some (NFloat (7 # 10)))
                   (healthy_msg example_py "wheat") |}
              [ESize square_coords; EBandNames square_coords;
               EReduce square_coords; ECentroid square_coords;
               EWeather (JFloat (21 # 2)) (JFloat (61 # 2))])
    as (idx & rest & H1 & H2).
  - vm_compute. reflexivity.
  - reflexivity.
  - exists idx, rest. split; assumption.
Defined.

(** ** C6: normalisation of index values *)

(** [round4_Q] is within half a unit of the fourth decimal place. *)
Lemma round4_Q_close (q : Q) : (Qabs (round4_Q q - q) <= 1 # 20000)%Q.
Proof.
  destruct q as [a b]. unfold round4_Q, q_lt, Qle_bool.
  cbn [Qmult Qplus Qminus Qopp inject_Z Qnum Qden].
  set (B := Z.pos (b * 1)).
  pose proof (Z.div_mod (a * 10000) B) as Hdm.
  pose proof (Z.mod_pos_bound (a * 10000) B) as Hb.
  set (f := (a * 10000 / B)%Z) in *. set (m := ((a * 10000) mod B)%Z) in *.
  assert (HB : (0 < B)%Z) by reflexivity.
  assert (HB1 : Z.pos (b * 1 * 1) = B) by (unfold B; rewrite !Pos.mul_1_r; reflexivity).
  assert (HB2 : Z.pos b = B) by (unfold B; rewrite !Pos.mul_1_r; reflexivity).
  rewrite HB1.
  specialize (Hdm ltac:(lia)). specialize (Hb HB).
  assert (Hz : forall z : Z, (2 * Z.abs (z * B - a * 10000) <= B)%Z ->
                (Qabs ((z # 10000) - (a # b)) <= 1 # 20000)%Q).
  { intros z Hz. apply Qabs_Qle_condition. unfold Qle, Qminus, Qplus, Qopp; simpl.
    rewrite HB2. split; nia. }
  repeat match goal with
         | |- context [if ?c then _ else _] => destruct c eqn:?
         end;
  apply Hz;
  repeat match goal with
         | H : negb _ = _ |- _ => apply (f_equal negb) in H; rewrite negb_involutive in H; simpl in H
         | H : (_ <=? _)%Z = true |- _ => apply Z.leb_le in H
         | H : (_ <=? _)%Z = false |- _ => apply Z.leb_gt in H
         end; nia.
Qed.

(** C6. In a 200 response, [indices] holds the provider's statistics through
    [safe_val]: a float is rounded to 4 decimal places (a multiple of 1/10000
    within 1/20000 of the value, so 0.123456789 gives 0.1235), an int is kept,
    and a missing or [None] statistic gives exactly [0.0]. *)
Theorem success_indices_normalized (py : Builtins) (env : Env)
    (crops : crop_table) (data : json) (r : response) (tr : list event)
    (Hrun : analyze_farm py env crops data = (Ok r, tr))
    (Hst : status r = 200%Z) :
  exists coords ms rest,
    In (EReduce coords) tr /\ mean_stats_info env coords = Ok ms /\
    rbody r = JObj (("indices", indices_of ms) :: rest) /\
    (forall name, assoc_get name ms = None \/ assoc_get name ms = Some None ->
                  safe_val ms name = NFloat 0) /\
    (forall name q, assoc_get name ms = Some (Some (NFloat q)) ->
       safe_val ms name = NFloat (round4_Q q) /\
       round4_Q q = Qmake (Qnum (round4_Q q)) 10000 /\
       (Qabs (round4_Q q - q) <= 1 # 20000)%Q) /\
    (forall name z, assoc_get name ms = Some (Some (NInt z)) ->
                    safe_val ms name = NInt z) /\
    round4_Q (123456789 # 1000000000) = 1235 # 10000.
Proof.
  destruct (analyze_success _ _ _ _ _ _ Hrun Hst)
    as (coords & ct & crop_type & size & available & ms & lon & lat & w & l & hs
        & _ & _ & _ & _ & _ & _ & _ & _ & _ & _ & Hms & _ & _ & _ & _ & Hr & Htr).
  exists coords, ms. eexists.
  split; [subst tr; simpl; tauto|].
  split; [exact Hms|].
  split; [subst r; reflexivity|].
  split; [intros name [H|H]; unfold safe_val; rewrite H; reflexivity|].
  split; [intros name q H; unfold safe_val; rewrite H;
          split; [reflexivity | split; [reflexivity | apply round4_Q_close]]|].
  split; [intros name z H; unfold safe_val; rewrite H; reflexivity|].
  reflexivity.
Qed.

(** Witness of C6: the spec's end-to-end scenario. *)
Lemma success_indices_normalized_witness :
  exists coords ms rest,
    In (EReduce coords) [ESize square_coords; EBandNames square_coords;
               EReduce square_coords; ECentroid square_coords;
               EWeather (JFloat (21 # 2)) (JFloat (61 # 2))] /\
    mean_stats_info scenario_env coords = Ok ms /\
    rbody (match fst (analyze_farm example_py scenario_env scenario_crops
              (JObj [("coordinates", square_coords); ("crop_type", JStr "wheat")]))
           with Ok r => r | Exc _ => err 0 "" end)
      = JObj (("indices", indices_of ms) :: rest) /\
    (forall name, assoc_get name ms = None \/ assoc_get name ms = Some None ->
                  safe_val ms name = NFloat 0) /\
    (forall name q, assoc_get name ms = Some (Some (NFloat q)) ->
       safe_val ms name = NFloat (round4_Q q) /\
       round4_Q q = Qmake (Qnum (round4_Q q)) 10000 /\
       (Qabs (round4_Q q - q) <= 1 # 20000)%Q) /\
    (forall name z, assoc_get name ms = Some (Some (NInt z)) ->
                    safe_val ms name = NInt z) /\
    round4_Q (123456789 # 1000000000) = 1235 # 10000.
Proof.
  exact (success_indices_normalized example_py scenario_env scenario_crops
           (JObj [("coordinates", square_coords); ("crop_type", JStr "wheat")])
           (match fst (analyze_farm example_py scenario_env scenario_crops
              (JObj [("coordinates", square_coords); ("crop_type", JStr "wheat")]))
            with Ok r => r | Exc _ => err 0 "" end)
           [ESize square_coords; EBandNames square_coords;
               EReduce square_coords; ECentroid square_coords;
               EWeather (JFloat (21 # 2)) (JFloat (61 # 2))]
           ltac:(vm_compute; reflexivity) ltac:(vm_compute; reflexivity)).
Defined.

(** ** C3: unknown crop type *)

(** A weather response that is a dict whose [current] entry is absent or a
    dict: the shape under which the weather block cannot raise. *)
Definition weather_shape (w : json) : Prop :=
  match w with
  | JObj l =>
      match assoc_get "current" l with
      | None | Some (JObj _) => True
      | Some _ => False
      end
  | _ => False
  end.

Lemma weather_shape_current (w : json) :
  weather_shape w -> exists l, py_get w "current" (JObj []) = Ok (JObj l).
Proof.
  destruct w as [| | | | | |l]; simpl; try contradiction.
  destruct (assoc_get "current" l) as [[| | | | | |l']|]; try contradiction;
    intros _; eexists; reflexivity.
Qed.

Lemma health_status_no_bounds (py : Builtins) (crop_type : string) (mean : num) (mx : option num) :
  health_status_of py crop_type mean None mx
  = Exc (TypeErrorCmp "<" (type_name (json_of_num mean)) "NoneType").
Proof. reflexivity. Qed.

(** C3. For a crop type whose lowercase form is not in the table, both
    bounds are [None], the classification raises the [TypeError] of
    [float < None], no run answers 200, and a run that got past the weather
    call answers 500 with that raw message. *)
Theorem unknown_crop_type_fails (py : Builtins) (env : Env)
    (crops : crop_table) (fields : list (string * json)) (s : string)
    (Hct : assoc_get "crop_type" fields = Some (JStr s))
    (Hunk : assoc_get (str_lower py s) crops = None) :
  lookup_min crops (str_lower py s) = None /\ lookup_max crops (str_lower py s) = None /\
  (forall mean, health_status_of py (str_lower py s) mean None None
                = Exc (TypeErrorCmp "<" (type_name (json_of_num mean)) "NoneType")) /\
  (forall r tr, analyze_farm py env crops (JObj fields) = (Ok r, tr) ->
                status r <> 200%Z) /\
  (forall r tr lat lon w,
     analyze_farm py env crops (JObj fields) = (Ok r, tr) ->
     In (EWeather lat lon) tr -> weather_info env lat lon = Ok w ->
     weather_shape w ->
     exists c ms, mean_stats_info env c = Ok ms /\
       r = err 500 (str_exn (TypeErrorCmp "<"
                     (type_name (json_of_num (safe_val ms "NDVI"))) "NoneType"))).
Proof.
  assert (Hmin : lookup_min crops (str_lower py s) = None)
    by (unfold lookup_min; rewrite Hunk; reflexivity).
  assert (Hmax : lookup_max crops (str_lower py s) = None)
    by (unfold lookup_max; rewrite Hunk; reflexivity).
  split; [exact Hmin|]. split; [exact Hmax|].
  split; [intro mean; reflexivity|].
  split.
  - intros r tr Hrun Hst.
    destruct (analyze_success _ _ _ _ _ _ Hrun Hst)
      as (coords & ct & crop_type & size & available & ms & lon & lat & w & l & hs
          & _ & _ & Hg & Hl & _ & _ & _ & _ & _ & _ & _ & _ & _ & _ & Hh & _).
    simpl in Hg. rewrite Hct in Hg. injection Hg as <-.
    simpl in Hl. injection Hl as <-.
    rewrite Hmin in Hh. discriminate Hh.
  - intros r tr lat lon w Hrun Hin Hw Hshape.
    destruct (weather_shape_current w Hshape) as [l Hcur].
    run_cases Hrun; trace_cases Hin;
      try (rewrite Hw in *;
           repeat match goal with
                  | H : Ok _ = Ok _ |- _ => injection H; clear H; intros; subst
                  end;
           rewrite Hcur in *;
           repeat match goal with
                  | H : Ok _ = Ok _ |- _ => injection H; clear H; intros; subst
                  | H : Ok _ = Exc _ |- _ => discriminate H
                  | H : Exc _ = Ok _ |- _ => discriminate H
                  end).
    all: repeat match goal with
                | H : py_lower _ (JStr _) = Ok _ |- _ =>
                    simpl in H; injection H; clear H; intros; subst
                end;
      rewrite ?Hmin, ?health_status_no_bounds in *;
      try discriminate;
      try congruence;
      repeat match goal with
             | H : Exc _ = Exc _ |- _ => injection H; clear H; intros; subst
             end;
      idtac.
    all: match goal with
         | H : mean_stats_info _ ?c = Ok ?ms |- _ =>
             exists c, ms; split; [exact H | reflexivity]
         end.
Qed.

Definition rice_request : json :=
  JObj [("coordinates", square_coords); ("crop_type", JStr "Rice")].

(** The scenario with crop type "Rice", absent from the table, answers
    500 with the raw comparison error. *)
Example unknown_crop_type_scenario :
  analyze_farm example_py scenario_env scenario_crops rice_request
  = (Ok (err 500 "'<' not supported between instances of 'float' and 'NoneType'"),
     [ESize square_coords; EBandNames square_coords; EReduce square_coords;
      ECentroid square_coords; EWeather (JFloat (21 # 2)) (JFloat (61 # 2))]).
Proof. vm_compute. reflexivity. Qed.

(** Witness of C3: crop type "Rice". *)
Lemma unknown_crop_type_fails_witness :
  lookup_min scenario_crops (str_lower example_py "Rice") = None /\
  lookup_max scenario_crops (str_lower example_py "Rice") = None /\
  (forall mean, health_status_of example_py (str_lower example_py "Rice") mean None None
                = Exc (TypeErrorCmp "<" (type_name (json_of_num mean)) "NoneType")) /\
  (forall r tr, analyze_farm example_py scenario_env scenario_crops
                  rice_request = (Ok r, tr) -> status r <> 200%Z) /\
  (forall r tr lat lon w,
     analyze_farm example_py scenario_env scenario_crops rice_request
       = (Ok r, tr) ->
     In (EWeather lat lon) tr -> weather_info scenario_env lat lon = Ok w ->
     weather_shape w ->
     exists c ms, mean_stats_info scenario_env c = Ok ms /\
       r = err 500 (str_exn (TypeErrorCmp "<"
                     (type_name (json_of_num (safe_val ms "NDVI"))) "NoneType"))).
Proof.
  apply (unknown_crop_type_fails example_py scenario_env scenario_crops
           [("coordinates", square_coords); ("crop_type", JStr "Rice")] "Rice");
    reflexivity.
Defined.

(** ** C10: weather defaults *)

(** The same collaborators with another weather endpoint. *)
Definition with_weather (env : Env) (wi : json -> json -> result json) : Env := {|
  ee_polygon := ee_polygon env;
  size_info := size_info env;
  band_names_info := band_names_info env;
  mean_stats_info := mean_stats_info env;
  centroid_info := centroid_info env;
  weather_info := wi
|}.

(** C10. If a run answers 200, it still answers 200 when the weather service
    instead returns any dict whose [current] is absent or a dict with any of its
    fields absent; the [weather] object then reads [temperature] and [rain]
    with default [0], [humidity] and [wind_speed] with default [None]. *)
Theorem weather_missing_fields_no_failure (py : Builtins) (env : Env)
    (crops : crop_table) (data : json) (r : response) (tr : list event)
    (wi : json -> json -> result json)
    (Hrun : analyze_farm py env crops data = (Ok r, tr))
    (Hst : status r = 200%Z)
    (Hwi : forall lat lon, exists w, wi lat lon = Ok w /\ weather_shape w) :
  exists r' tr' lat lon w l idx rest,
    analyze_farm py (with_weather env wi) crops data = (Ok r', tr') /\
    status r' = 200%Z /\
    In (EWeather lat lon) tr' /\ wi lat lon = Ok w /\
    py_get w "current" (JObj []) = Ok (JObj l) /\
    rbody r' = JObj (("indices", idx) :: ("weather", weather_of l) :: rest).
Proof.
  destruct (analyze_success _ _ _ _ _ _ Hrun Hst)
    as (coords & ct & crop_type & size & available & ms & lon & lat & w & l & hs
        & H1 & H2 & H3 & H4 & H5 & H6 & H7 & H8 & H9 & H10 & H11 & H12 & _ & _
        & H15 & _ & _).
  destruct (Hwi lat lon) as (w' & Hw' & Hshape).
  destruct (weather_shape_current w' Hshape) as (l' & Hcur).
  pose proof (analyze_success_intro py (with_weather env wi) crops data
                coords ct crop_type size available ms lon lat w' l' hs
                H1 H2 H3 H4 H5 H6 H7 H8 H9 H10 H11 H12 Hw' Hcur H15) as Hrun'.
  do 8 eexists. split; [exact Hrun'|].
  split; [reflexivity|].
  split; [simpl; tauto|].
  split; [exact Hw'|]. split; [exact Hcur|]. reflexivity.
Qed.

(** Witness of C10: the scenario with a weather answer without [current]. *)
Lemma weather_missing_fields_no_failure_witness :
  exists r' tr' lat lon w l idx rest,
    analyze_farm example_py
      (with_weather scenario_env (fun _ _ => Ok (JObj []))) scenario_crops
      (JObj [("coordinates", square_coords); ("crop_type", JStr "wheat")])
      = (Ok r', tr') /\
    status r' = 200%Z /\
    In (EWeather lat lon) tr' /\ (fun _ _ : json => @Ok json (JObj [])) lat lon = Ok w /\
    py_get w "current" (JObj []) = Ok (JObj l) /\
    rbody r' = JObj (("indices", idx) :: ("weather", weather_of l) :: rest).
Proof.
  apply (weather_missing_fields_no_failure example_py scenario_env
           scenario_crops
           (JObj [("coordinates", square_coords); ("crop_type", JStr "wheat")])
           (match fst (analyze_farm example_py scenario_env scenario_crops
              (JObj [("coordinates", square_coords); ("crop_type", JStr "wheat")]))
            with Ok r => r | Exc _ => err 0 "" end)
           (snd (analyze_farm example_py scenario_env scenario_crops
              (JObj [("coordinates", square_coords); ("crop_type", JStr "wheat")])))
           (fun _ _ => Ok (JObj []))).
  - vm_compute. reflexivity.
  - vm_compute. reflexivity.
  - intros lat lon. exists (JObj []). split; [reflexivity | exact I].
Defined.

(** With no [current] object the defaults read: temperature 0, humidity
    None, wind_speed None, rain 0. *)
Example weather_of_no_current :
  weather_of [] = JObj [("temperature", JInt 0); ("humidity", JNull);
                        ("wind_speed", JNull); ("rain", JInt 0)].
Proof. reflexivity. Qed.

(** * Further properties of [analyze_farm] *)

(** ** Response codes and error bodies *)

(** The catch-all handler turns every run into a response whose status is
    one of 200, 400, 404 and 500. *)
Theorem analyze_status_codes (py : Builtins) (env : Env)
    (crops : crop_table) (data : json) :
  match fst (analyze_farm py env crops data) with
  | Ok r => In (status r) [200; 400; 404; 500]%Z
  | Exc _ => False
  end.
Proof.
  destruct (analyze_farm py env crops data) as [res tr] eqn:H.
  run_cases H; simpl; tauto.
Qed.

(** Every response other than 200 has the body [{"error": message}]. *)
Theorem analyze_error_body (py : Builtins) (env : Env)
    (crops : crop_table) (data : json) (r : response) (tr : list event)
    (Hrun : analyze_farm py env crops data = (Ok r, tr))
    (Hst : status r <> 200%Z) :
  exists msg, rbody r = JObj [("error", JStr msg)].
Proof.
  run_cases Hrun; simpl in *; try (eexists; reflexivity); congruence.
Qed.

(** Witness: the request without coordinates. *)
Lemma analyze_error_body_witness :
  exists msg, rbody (err 400 "No coordinates provided") = JObj [("error", JStr msg)].
Proof.
  apply (analyze_error_body example_py scenario_env scenario_crops
           (JObj [("crop_type", JStr "wheat")]) (err 400 "No coordinates provided") []).
  - reflexivity.
  - discriminate.
Defined.

(** ** Order of the remote calls *)

(** The full sequence of remote calls on a polygon, the weather call at the
    centroid [(lon, lat)] with latitude first. *)
Definition call_plan (coords lat lon : json) : list event :=
  [ESize coords; EBandNames coords; EReduce coords; ECentroid coords;
   EWeather lat lon].

(** The remote calls of every run are a prefix of [call_plan]: each call at
    most once, in this order, all on the request's coordinates, and the weather
    call (if made) at the latitude and longitude the centroid query returned. *)
Theorem analyze_call_order (py : Builtins) (env : Env)
    (crops : crop_table) (data : json) (res : result response)
    (tr : list event)
    (Hrun : analyze_farm py env crops data = (res, tr)) :
  tr = [] \/
  exists coords n lon lat,
    py_get data "coordinates" JNull = Ok coords /\ (1 <= n <= 5)%nat /\
    tr = firstn n (call_plan coords lat lon) /\
    (n = 5%nat -> centroid_info env coords = Ok (lon, lat)).
Proof.
  run_cases Hrun;
    first [ left; reflexivity
          | right; eexists; exists 5%nat; do 2 eexists;
            split; [reflexivity|];
            split; [lia|]; split; [reflexivity|]; intros _; eassumption
          | right; eexists;
            multimatch goal with
            | |- _ => exists 1%nat | |- _ => exists 2%nat
            | |- _ => exists 3%nat | |- _ => exists 4%nat
            end;
            exists JNull, JNull;
            split; [reflexivity|];
            split; [lia|]; split; [reflexivity|]; intros; lia ].
Qed.

(** Witness: the end-to-end scenario makes all five calls. *)
Lemma analyze_call_order_witness :
  [ESize square_coords; EBandNames square_coords; EReduce square_coords;
   ECentroid square_coords; EWeather (JFloat (21 # 2)) (JFloat (61 # 2))] = [] \/
  exists coords n lon lat,
    py_get (JObj [("coordinates", square_coords); ("crop_type", JStr "wheat")])
      "coordinates" JNull = Ok coords /\ (1 <= n <= 5)%nat /\
    [ESize square_coords; EBandNames square_coords; EReduce square_coords;
     ECentroid square_coords; EWeather (JFloat (21 # 2)) (JFloat (61 # 2))]
      = firstn n (call_plan coords lat lon) /\
    (n = 5%nat -> centroid_info scenario_env coords = Ok (lon, lat)).
Proof.
  apply (analyze_call_order example_py scenario_env scenario_crops
           (JObj [("coordinates", square_coords); ("crop_type", JStr "wheat")])
           (fst (analyze_farm example_py scenario_env scenario_crops
              (JObj [("coordinates", square_coords); ("crop_type", JStr "wheat")])))).
  vm_compute. reflexivity.
Defined.

(** ** Failures before and during the remote calls *)

(** A request body that is not a JSON object ([None] from [get_json()], a
    list, a string, ...) fails on [data.get] with a 500 naming its type, and
    no remote call is made. *)
Theorem analyze_non_object_body (py : Builtins) (env : Env)
    (crops : crop_table) (data : json)
    (Hnot : match data with JObj _ => False | _ => True end) :
  analyze_farm py env crops data
  = (Ok (err 500 ("'" ++ type_name data ++ "' object has no attribute 'get'")), []).
Proof. destruct data; try contradiction; reflexivity. Qed.

(** Witness: a [null] body. *)
Lemma analyze_non_object_body_witness :
  analyze_farm example_py scenario_env scenario_crops JNull
  = (Ok (err 500 "'NoneType' object has no attribute 'get'"), []).
Proof. exact (analyze_non_object_body example_py scenario_env scenario_crops JNull I). Defined.

(** When the input passes validation but [ee.Geometry.Polygon(coords)]
    raises on the client, the response is 500 with that exception's text and
    no remote call is made. *)
Theorem analyze_polygon_error (py : Builtins) (env : Env)
    (crops : crop_table) (data coords ct : json) (crop_type : string) (e : exn)
    (Hc : py_get data "coordinates" JNull = Ok coords)
    (Htc : truthy coords = true)
    (Hct : py_get data "crop_type" (JStr "") = Ok ct)
    (Hl : py_lower py ct = Ok crop_type) (Hne : crop_type <> "")
    (Hpoly : ee_polygon env coords = Some e) :
  analyze_farm py env crops data = (Ok (err 500 (str_exn e)), []).
Proof.
  unfold analyze_farm, analyze_body, try_except, bind, lift, ret.
  rewrite Hc, Hct, Hl, Htc, Hpoly. apply String.eqb_neq in Hne.
  simpl. rewrite Hne. reflexivity.
Qed.

(** Witness: a polygon rejected on the client. *)
Lemma analyze_polygon_error_witness :
  analyze_farm example_py
    {| ee_polygon := fun _ => Some (RemoteError "Invalid geometry");
       size_info := size_info scenario_env;
       band_names_info := band_names_info scenario_env;
       mean_stats_info := mean_stats_info scenario_env;
       centroid_info := centroid_info scenario_env;
       weather_info := weather_info scenario_env |}
    scenario_crops
    (JObj [("coordinates", JArr [JInt 1]); ("crop_type", JStr "wheat")])
  = (Ok (err 500 (str_exn (RemoteError "Invalid geometry"))), []).
Proof.
  apply (analyze_polygon_error _ _ _ _ (JArr [JInt 1]) (JStr "wheat") "wheat");
    try reflexivity; discriminate.
Defined.

(** The exception a remote call raises, if it raises. *)
Definition call_exn (env : Env) (ev : event) : option exn :=
  let of {A} (r : result A) := match r with Exc e => Some e | Ok _ => None end in
  match ev with
  | ESize c => of (size_info env c)
  | EBandNames c => of (band_names_info env c)
  | EReduce c => of (mean_stats_info env c)
  | ECentroid c => of (centroid_info env c)
  | EWeather lat lon => of (weather_info env lat lon)
  end.

(** A remote call that raises ends the run: it is the last call of the
    trace (no retry, nothing after it) and the response is 500 with the raw
    text of its exception. *)
Theorem analyze_remote_failure (py : Builtins) (env : Env)
    (crops : crop_table) (data : json) (r : response) (tr : list event)
    (ev : event) (e : exn)
    (Hrun : analyze_farm py env crops data = (Ok r, tr))
    (Hin : In ev tr) (Hfail : call_exn env ev = Some e) :
  r = err 500 (str_exn e) /\ tr = (removelast tr ++ [ev])%list.
Proof.
  run_cases Hrun; trace_cases Hin;
    match goal with H : _ = ev |- _ => subst ev end; simpl in Hfail;
    repeat match goal with
           | H : ?x = _, Hf : context [?x] |- _ =>
               match type of Hf with call_exn _ _ = _ => fail 1 | _ => idtac end;
               rewrite H in Hf
           end;
    try discriminate Hfail;
    injection Hfail as <-; split; reflexivity.
Qed.

(** The scenario with the weather service unreachable. *)
Definition weather_down_env : Env :=
  with_weather scenario_env (fun _ _ => Exc (RemoteError "Connection refused")).

(** Witness: the failing weather call is the last one, the body its text. *)
Lemma analyze_remote_failure_witness :
  err 500 "Connection refused" = err 500 (str_exn (RemoteError "Connection refused")) /\
  call_plan square_coords (JFloat (21 # 2)) (JFloat (61 # 2))
  = (removelast (call_plan square_coords (JFloat (21 # 2)) (JFloat (61 # 2)))
     ++ [EWeather (JFloat (21 # 2)) (JFloat (61 # 2))])%list.
Proof.
  apply (analyze_remote_failure example_py weather_down_env scenario_crops
           (JObj [("coordinates", square_coords); ("crop_type", JStr "wheat")])
           (err 500 "Connection refused")
           (call_plan square_coords (JFloat (21 # 2)) (JFloat (61 # 2)))
           (EWeather (JFloat (21 # 2)) (JFloat (61 # 2)))
           (RemoteError "Connection refused")).
  - vm_compute. reflexivity.
  - simpl. tauto.
  - reflexivity.
Defined.

(** ** What a successful response reports *)

Lemma health_status_of_cases (py : Builtins) (crop_type : string) (mean : num)
    (mn mx : option num) (hs : string) :
  health_status_of py crop_type mean mn mx = Ok hs ->
  hs = unhealthy_msg py crop_type \/ hs = healthy_msg py crop_type \/ hs = excess_msg.
Proof.
  unfold health_status_of, py_lt, py_le, py_cmp.
  destruct mn, mx; simpl;
    repeat match goal with
           | |- context [if ?b then _ else _] => destruct b
           end;
    intro H; first [discriminate H | injection H as <-; tauto].
Qed.

(** A 200 response comes from a crop type present in the table under its
    lowercase form; it echoes that lowercase crop type, formats the entry's
    bounds as "min - max" and carries one of the three status messages. *)
Theorem success_reports_table_entry (py : Builtins) (env : Env)
    (crops : crop_table) (data : json) (r : response) (tr : list event)
    (Hrun : analyze_farm py env crops data = (Ok r, tr))
    (Hst : status r = 200%Z) :
  exists s range idx wth hs,
    py_get data "crop_type" (JStr "") = Ok (JStr s) /\
    assoc_get (str_lower py s) crops = Some range /\
    rbody r = JObj [("indices", idx); ("weather", wth);
                    ("crop_type", JStr (str_lower py s));
                    ("healthy_range",
                       JStr (num_str py (ndvi_min range) ++ " - "
                             ++ num_str py (ndvi_max range)));
                    ("health_status", JStr hs)] /\
    (hs = unhealthy_msg py (str_lower py s) \/ hs = healthy_msg py (str_lower py s) \/ hs = excess_msg).
Proof.
  destruct (analyze_success _ _ _ _ _ _ Hrun Hst)
    as (coords & ct & crop_type & size & available & ms & lon & lat & w & l & hs
        & _ & _ & Hct & Hl & _ & _ & _ & _ & _ & _ & _ & _ & _ & _ & Hh & Hr & _).
  destruct ct as [| | | |s| |]; try discriminate Hl.
  simpl in Hl. injection Hl as <-.
  destruct (assoc_get (str_lower py s) crops) as [range|] eqn:Hrange.
  - exists s, range. do 2 eexists. exists hs.
    split; [exact Hct|]. split; [exact Hrange|].
    split.
    + subst r. unfold success_body, lookup_min, lookup_max. rewrite Hrange.
      reflexivity.
    + exact (health_status_of_cases _ _ _ _ _ _ Hh).
  - unfold lookup_min in Hh. rewrite Hrange in Hh. discriminate Hh.
Qed.

(** Witness: the end-to-end scenario ("wheat", range 0.3 - 0.7). *)
Lemma success_reports_table_entry_witness :
  exists s range idx wth hs,
    py_get (JObj [("coordinates", square_coords); ("crop_type", JStr "WHEAT")])
      "crop_type" (JStr "") = Ok (JStr s) /\
    assoc_get (str_lower example_py s) scenario_crops = Some range /\
    rbody (match fst (analyze_farm example_py scenario_env scenario_crops
              (JObj [("coordinates", square_coords); ("crop_type", JStr "WHEAT")]))
           with Ok r => r | Exc _ => err 0 "" end)
      = JObj [("indices", idx); ("weather", wth);
              ("crop_type", JStr (str_lower example_py s));
              ("healthy_range",
                 JStr (num_str example_py (ndvi_min range) ++ " - "
                       ++ num_str example_py (ndvi_max range)));
              ("health_status", JStr hs)] /\
    (hs = unhealthy_msg example_py (str_lower example_py s) \/ hs = healthy_msg example_py (str_lower example_py s) \/ hs = excess_msg).
Proof.
  apply (success_reports_table_entry example_py scenario_env scenario_crops
           (JObj [("coordinates", square_coords); ("crop_type", JStr "WHEAT")])
           (match fst (analyze_farm example_py scenario_env scenario_crops
              (JObj [("coordinates", square_coords); ("crop_type", JStr "WHEAT")]))
            with Ok r => r | Exc _ => err 0 "" end)
           (snd (analyze_farm example_py scenario_env scenario_crops
              (JObj [("coordinates", square_coords); ("crop_type", JStr "WHEAT")])))).
  - vm_compute. reflexivity.
  - vm_compute. reflexivity.
Defined.

(** The status is computed from the NDVI value the response reports (the
    rounded, defaulted [safe_val("NDVI")]), not from the raw statistic. *)
Theorem success_status_from_reported_ndvi (py : Builtins)
    (env : Env) (crops : crop_table) (data : json) (r : response)
    (tr : list event)
    (Hrun : analyze_farm py env crops data = (Ok r, tr))
    (Hst : status r = 200%Z) :
  exists crop_type ndvi other_indices rest hs,
    rbody r = JObj (("indices", JObj (("NDVI", json_of_num ndvi) :: other_indices))
                    :: rest) /\
    assoc_get "health_status" rest = Some (JStr hs) /\
    health_status_of py crop_type ndvi (lookup_min crops crop_type)
      (lookup_max crops crop_type) = Ok hs.
Proof.
  destruct (analyze_success _ _ _ _ _ _ Hrun Hst)
    as (coords & ct & crop_type & size & available & ms & lon & lat & w & l & hs
        & _ & _ & _ & _ & _ & _ & _ & _ & _ & _ & _ & _ & _ & _ & Hh & Hr & _).
  exists crop_type, (safe_val ms "NDVI"). do 2 eexists. exists hs.
  subst r. split; [reflexivity|]. split; [reflexivity|]. exact Hh.
Qed.

(** Witness: the end-to-end scenario. *)
Lemma success_status_from_reported_ndvi_witness :
  exists crop_type ndvi other_indices rest hs,
    rbody (match fst (analyze_farm example_py scenario_env scenario_crops
              (JObj [("coordinates", square_coords); ("crop_type", JStr "wheat")]))
           with Ok r => r | Exc _ => err 0 "" end)
      = JObj (("indices", JObj (("NDVI", json_of_num ndvi) :: other_indices))
              :: rest) /\
    assoc_get "health_status" rest = Some (JStr hs) /\
    health_status_of example_py crop_type ndvi (lookup_min scenario_crops crop_type)
      (lookup_max scenario_crops crop_type) = Ok hs.
Proof.
  apply (success_status_from_reported_ndvi example_py scenario_env
           scenario_crops
           (JObj [("coordinates", square_coords); ("crop_type", JStr "wheat")])
           (match fst (analyze_farm example_py scenario_env scenario_crops
              (JObj [("coordinates", square_coords); ("crop_type", JStr "wheat")]))
            with Ok r => r | Exc _ => err 0 "" end)
           (snd (analyze_farm example_py scenario_env scenario_crops
              (JObj [("coordinates", square_coords); ("crop_type", JStr "wheat")])))).
  - vm_compute. reflexivity.
  - vm_compute. reflexivity.
Defined.

(** ** Classification edge cases *)

(** With an inverted table entry ([ndvi_min > ndvi_max]) the status is
    never "healthy": below [ndvi_min] it is unhealthy, otherwise excess
    greenness. *)
Theorem health_status_inverted_range (py : Builtins) (crop_type : string) (mean mn mx : num)
    (Hinv : (num_val mx < num_val mn)%Q) :
  health_status_of py crop_type mean (Some mn) (Some mx)
  = if q_lt (num_val mean) (num_val mn) then Ok (unhealthy_msg py crop_type)
    else Ok excess_msg.
Proof.
  unfold health_status_of, py_lt, py_le, py_cmp.
  destruct (q_lt (num_val mean) (num_val mn)) eqn:E1; [reflexivity|].
  destruct (Qle_bool (num_val mn) (num_val mean)) eqn:E2; [|reflexivity].
  destruct (Qle_bool (num_val mean) (num_val mx)) eqn:E3; [|reflexivity].
  apply Qle_bool_iff in E2. apply Qle_bool_iff in E3. exfalso.
  apply (Qlt_not_le _ _ Hinv). apply (Qle_trans _ _ _ E2 E3).
Qed.

(** Witness: range 0.8 - 0.2 with mean 0.9. *)
Lemma health_status_inverted_range_witness :
  health_status_of example_py "wheat" (NFloat (9 # 10)) (Some (NFloat (8 # 10)))
    (Some (NFloat (2 # 10))) = Ok excess_msg.
Proof.
  rewrite (health_status_inverted_range example_py "wheat" (NFloat (9 # 10))
             (NFloat (8 # 10)) (NFloat (2 # 10))); [vm_compute; reflexivity|].
  vm_compute. reflexivity.
Defined.




(** ** Bands of a successful run *)

(** A 200 response is only given when the band query was made and the
    composite had all five required bands B2, B3, B4, B8 and B11. *)
Theorem success_has_required_bands (py : Builtins) (env : Env)
    (crops : crop_table) (data : json) (r : response) (tr : list event)
    (Hrun : analyze_farm py env crops data = (Ok r, tr))
    (Hst : status r = 200%Z) :
  exists coords available,
    In (EBandNames coords) tr /\ band_names_info env coords = Ok available /\
    forall b, In b required_bands -> In b available.
Proof.
  destruct (analyze_success _ _ _ _ _ _ Hrun Hst)
    as (coords & ct & crop_type & size & available & ms & lon & lat & w & l & hs
        & _ & _ & _ & _ & _ & _ & _ & _ & Hb & Hm & _ & _ & _ & _ & _ & _ & Htr).
  exists coords, available. split; [subst tr; simpl; tauto|].
  split; [exact Hb|].
  intros b Hreq. destruct (in_dec string_dec b available) as [Hy|Hn]; [exact Hy|].
  exfalso. assert (Hmb : In b (missing_bands available))
    by (apply missing_bands_spec; split; assumption).
  rewrite Hm in Hmb. contradiction.
Qed.

(** Witness: the end-to-end scenario. *)
Lemma success_has_required_bands_witness :
  exists coords available,
    In (EBandNames coords) (call_plan square_coords (JFloat (21 # 2)) (JFloat (61 # 2)))
    /\ band_names_info scenario_env coords = Ok available /\
    forall b, In b required_bands -> In b available.
Proof.
  apply (success_has_required_bands example_py scenario_env scenario_crops
           (JObj [("coordinates", square_coords); ("crop_type", JStr "wheat")])
           (match fst (analyze_farm example_py scenario_env scenario_crops
              (JObj [("coordinates", square_coords); ("crop_type", JStr "wheat")]))
            with Ok r => r | Exc _ => err 0 "" end)).
  - vm_compute. reflexivity.
  - vm_compute. reflexivity.
Defined.
